(** * The query URL builder of [_notebooks/resources/config.py]

    The repository holds one Python function, [generate_query], which the
    specification calls [build_query_url].  It formats three values into one
    string with an f-string and then runs two [str.replace] passes over the
    whole string: spaces first, newlines second.

    Python text is a sequence of Unicode code points, so a string is modelled
    as a list of code points ([N]); literals of the source are written with
    [lit].  The arguments of the function are dynamically typed: they are
    modelled as a small tagged union, and the f-string as the fallible
    formatting of each argument in turn.  Formatting an integer is fallible
    too: CPython refuses to print an integer of more than
    [sys.int_info.default_max_str_digits] decimal digits. *)

From Stdlib Require Import List NArith ZArith Bool Lia.
From Stdlib Require Import Strings.Ascii Strings.String Numbers.DecimalString.
From Stdlib Require Import Numbers.DecimalZ.
Import ListNotations.

Open Scope N_scope.

(** ** Text *)

Definition codepoint := N.
Definition str := list codepoint.

(** A literal of the source, as code points. *)
Definition lit (s : string) : str := map N_of_ascii (list_ascii_of_string s).

Definition SPACE : codepoint := 32.
Definition NEWLINE : codepoint := 10.

(** The replacement text of both passes, ["%20"]. *)
Definition PCT20 : str := lit "%20".

(** ** [str.replace]

    [s.replace(old, new)] scans [s] from the left; where [old] starts it
    emits [new] and jumps over the occurrence, elsewhere it copies one code
    point.  The jump is the counter [skip].  With an empty [old] Python puts
    [new] in front of every code point and after the last one. *)

Fixpoint starts_with (p s : str) : bool :=
  match p, s with
  | [], _ => true
  | _ :: _, [] => false
  | c :: p', d :: s' => (c =? d) && starts_with p' s'
  end.

Fixpoint replace_from (old new : str) (skip : nat) (s : str) : str :=
  match s with
  | [] => []
  | c :: s' =>
      match skip with
      | S k => replace_from old new k s'
      | O =>
          if starts_with old s
          then new ++ replace_from old new (Nat.pred (List.length old)) s'
          else c :: replace_from old new 0 s'
      end
  end.

Definition replace (old new s : str) : str :=
  match old with
  | [] => new ++ flat_map (fun c => c :: new) s
  | _ :: _ => replace_from old new 0 s
  end.

(** ** Values and formatting *)

Inductive exn : Type :=
| PyExc (name : string).

Inductive result (A : Type) : Type :=
| Ok (a : A)
| Raise (e : exn).

Arguments Ok {A} a.
Arguments Raise {A} e.

Definition bind {A B : Type} (r : result A) (k : A -> result B) : result B :=
  match r with
  | Ok a => k a
  | Raise e => Raise e
  end.

Notation "x <- r ;; k" := (bind r (fun x => k))
  (at level 61, r at next level, right associativity).

(** [str(n)] for an integer: decimal digits, with a leading minus sign for a
    negative number. *)
Definition str_of_int (z : Z) : str :=
  lit (NilEmpty.string_of_int (Z.to_int z)).

(** The interpreter's limit on the length of a decimal numeral, at its
    default, [sys.int_info.default_max_str_digits]. *)
Definition INT_MAX_STR_DIGITS : nat := 4300.

(** The number of decimal digits of [z], its sign not counted. *)
Definition int_digits (z : Z) : nat := List.length (str_of_int (Z.abs z)).

(** What the function can be handed.  A replacement field [{x}] of an
    f-string calls [format(x, "")]: text formats as itself; an integer as its
    decimal numeral, unless it has more digits than the interpreter's limit,
    in which case the conversion raises [ValueError]; any other object as
    whatever its [__format__] does, which may be to raise. *)
Inductive value : Type :=
| PyStr (s : str)
| PyInt (z : Z)
| PyObj (fmt : result str).

Definition format_value (v : value) : result str :=
  match v with
  | PyStr s => Ok s
  | PyInt z =>
      if (int_digits z <=? INT_MAX_STR_DIGITS)%nat
      then Ok (str_of_int z)
      else Raise (PyExc "ValueError")
  | PyObj fmt => fmt
  end.

(** ** [generate_query] *)

(** The tuple the [for] loop runs over. *)
Definition replacements : list (str * str) :=
  [ ([SPACE], PCT20); ([NEWLINE], PCT20) ].

(** The three adjacent f-string pieces, joined:
    [f"{endpoint_url}?$query=" f"{query}%20" f"limit {limit}"]. *)
Definition raw_query (endpoint_url query limit : str) : str :=
  (endpoint_url ++ lit "?$query=") ++ (query ++ lit "%20") ++ (lit "limit " ++ limit).

(** The loop: [raw_query = raw_query.replace( *replacements )] for each pair. *)
Definition substitute (raw : str) : str :=
  fold_left (fun raw r => replace (fst r) (snd r) raw) replacements raw.

Definition generate_query (endpoint_url query limit : value) : result str :=
  e <- format_value endpoint_url ;;
  q <- format_value query ;;
  n <- format_value limit ;;
  Ok (substitute (raw_query e q n)).

(** The function at its intended types, as the specification names it. *)
Definition build_query_url (e q : str) (n : Z) : result str :=
  generate_query (PyStr e) (PyStr q) (PyInt n).

(** ** Vocabulary of the properties *)

(** [c in s]. *)
Definition contains (c : codepoint) (s : str) : bool := existsb (N.eqb c) s.

(** What the two passes together do to one code point, in the words of the
    specification: a space or a newline becomes ["%20"], anything else stays. *)
Definition escape_char (c : codepoint) : str :=
  if (c =? SPACE) || (c =? NEWLINE) then PCT20 else [c].

Definition escape (s : str) : str := flat_map escape_char s.

(** What one pass [replace([a], new)] does to one code point. *)
Definition replace_char (a : codepoint) (new : str) (c : codepoint) : str :=
  if c =? a then new else [c].

(** The string before substitution, as the specification spells it. *)
Definition assembled (e q : str) (n : Z) : str :=
  e ++ lit "?$query=" ++ q ++ lit "%20limit " ++ str_of_int n.

(** [Subseq a b]: [a] is [b] with some code points left out, order kept. *)
Inductive Subseq : str -> str -> Prop :=
| Subseq_nil : Subseq [] []
| Subseq_skip : forall a c b, Subseq a b -> Subseq a (c :: b)
| Subseq_keep : forall a c b, Subseq a b -> Subseq (c :: a) (c :: b).

(** The code points of [s] that are neither a space nor a newline. *)
Definition kept (s : str) : str :=
  filter (fun c => negb ((c =? SPACE) || (c =? NEWLINE))) s.

(** The endpoint of the worked examples. *)
Definition example_org : str := lit "https://example.org/resource".

(** The number of spaces and newlines of [s]. *)
Definition count_ws (s : str) : nat :=
  List.length (filter (fun c => (c =? SPACE) || (c =? NEWLINE)) s).

(** Carriage return and tab: control characters the loop does not name. *)
Definition CR : codepoint := 13.
Definition TAB : codepoint := 9.

(** * Properties *)

(** ** [str.replace] with a one-character pattern *)

Section ReplaceChar.

Variables (a : codepoint) (new : str).

Lemma replace_single (s : str) :
  replace [a] new s = flat_map (replace_char a new) s.
Proof.
  unfold replace.
  induction s as [|c s IH]; [reflexivity|].
  cbn [replace_from starts_with flat_map List.length Nat.pred].
  unfold replace_char at 1.
  rewrite N.eqb_sym.
  destruct (c =? a); cbn [andb]; rewrite IH; reflexivity.
Qed.

Lemma replace_single_app (s t : str) :
  replace [a] new (s ++ t) = replace [a] new s ++ replace [a] new t.
Proof. rewrite !replace_single. apply flat_map_app. Qed.

Lemma replace_single_absent (s : str) :
  contains a s = false -> replace [a] new s = s.
Proof.
  rewrite replace_single.
  induction s as [|c s IH]; [reflexivity|].
  cbn [contains existsb flat_map].
  intros H. apply orb_false_iff in H. destruct H as [Hc Hs].
  unfold replace_char at 1. rewrite N.eqb_sym, Hc.
  cbn [app]. f_equal. apply IH, Hs.
Qed.

End ReplaceChar.

(** ** The substitution step *)

Lemma substitute_unfold (s : str) :
  substitute s = replace [NEWLINE] PCT20 (replace [SPACE] PCT20 s).
Proof. reflexivity. Qed.

Lemma contains_app (c : codepoint) (s t : str) :
  contains c (s ++ t) = contains c s || contains c t.
Proof. apply existsb_app. Qed.

Lemma substitute_app (s t : str) :
  substitute (s ++ t) = substitute s ++ substitute t.
Proof. rewrite !substitute_unfold, !replace_single_app. reflexivity. Qed.

Lemma substitute_escape (s : str) : substitute s = escape s.
Proof.
  induction s as [|c s IH]; [reflexivity|].
  change (c :: s) with ([c] ++ s).
  rewrite substitute_app, IH.
  unfold escape. rewrite flat_map_app. f_equal.
  cbn [flat_map]. rewrite app_nil_r.
  rewrite substitute_unfold, !replace_single.
  unfold escape_char. cbn [flat_map]. unfold replace_char at 2.
  destruct (c =? SPACE); [reflexivity|].
  cbn [app flat_map orb]. unfold replace_char.
  destruct (c =? NEWLINE); reflexivity.
Qed.

Lemma substitute_clean (s : str) :
  contains SPACE s = false -> contains NEWLINE s = false -> substitute s = s.
Proof.
  intros Hs Hn. rewrite substitute_unfold.
  rewrite (replace_single_absent SPACE PCT20 s Hs).
  apply replace_single_absent, Hn.
Qed.

Lemma escape_clean (c : codepoint) (s : str) :
  (c = SPACE \/ c = NEWLINE) -> contains c (escape s) = false.
Proof.
  intros Hc. induction s as [|d s IH]; [reflexivity|].
  unfold escape in *. cbn [flat_map]. rewrite contains_app, IH, orb_false_r.
  unfold escape_char.
  destruct (d =? SPACE) eqn:E1; [destruct Hc; subst; reflexivity|].
  destruct (d =? NEWLINE) eqn:E2; [destruct Hc; subst; reflexivity|].
  cbn [orb contains existsb]. rewrite orb_false_r.
  destruct Hc; subst c; rewrite N.eqb_sym; assumption.
Qed.

(** ** Decimal numerals hold digits and a minus sign only *)

Lemma uint_clean (c : codepoint) (u : Decimal.uint) :
  (c = SPACE \/ c = NEWLINE) ->
  contains c (lit (NilEmpty.string_of_uint u)) = false.
Proof.
  intros Hc.
  induction u; [reflexivity | ..];
    cbn [NilEmpty.string_of_uint lit list_ascii_of_string map contains existsb];
    fold (lit (NilEmpty.string_of_uint u));
    fold (contains c (lit (NilEmpty.string_of_uint u)));
    rewrite IHu, orb_false_r; destruct Hc; subst c; reflexivity.
Qed.

Lemma str_of_int_clean (c : codepoint) (z : Z) :
  (c = SPACE \/ c = NEWLINE) -> contains c (str_of_int z) = false.
Proof.
  intros Hc. unfold str_of_int.
  destruct (Z.to_int z) as [u|u]; cbn [NilEmpty.string_of_int].
  - apply uint_clean, Hc.
  - change (lit (String "-" (NilEmpty.string_of_uint u)))
      with (45 :: lit (NilEmpty.string_of_uint u)).
    cbn [contains existsb]. fold (contains c (lit (NilEmpty.string_of_uint u))).
    rewrite (uint_clean c u Hc).
    destruct Hc; subst c; reflexivity.
Qed.

(** ** Formatting an integer *)

Lemma format_int_ok (n : Z) :
  (int_digits n <= INT_MAX_STR_DIGITS)%nat ->
  format_value (PyInt n) = Ok (str_of_int n).
Proof.
  intros H. apply Nat.leb_le in H. unfold format_value. rewrite H. reflexivity.
Qed.

Lemma format_int_raise (n : Z) :
  (INT_MAX_STR_DIGITS < int_digits n)%nat ->
  format_value (PyInt n) = Raise (PyExc "ValueError").
Proof.
  intros H. apply Nat.leb_gt in H. unfold format_value. rewrite H. reflexivity.
Qed.

(** [10 ** 4300] has 4301 digits, one more than the limit allows. *)
Lemma ten_pow_4300_too_long :
  (INT_MAX_STR_DIGITS < int_digits (10 ^ 4300))%nat.
Proof. apply Nat.leb_gt. vm_compute. reflexivity. Qed.

(** ** The call at its intended types *)

Lemma raw_query_assembled (e q : str) (n : Z) :
  raw_query e q (str_of_int n) = assembled e q n.
Proof.
  unfold raw_query, assembled.
  rewrite <- !app_assoc. reflexivity.
Qed.

Lemma substitute_assembled (e q : str) (n : Z) :
  substitute (assembled e q n) =
  escape e ++ lit "?$query=" ++ escape q ++ lit "%20limit%20" ++ str_of_int n.
Proof.
  unfold assembled. rewrite !substitute_app.
  rewrite (substitute_clean (str_of_int n)) by (apply str_of_int_clean; auto).
  rewrite !substitute_escape. reflexivity.
Qed.

(** The two outcomes of the call. *)
Lemma build_query_url_cases (e q : str) (n : Z) :
  build_query_url e q n =
  if (int_digits n <=? INT_MAX_STR_DIGITS)%nat
  then Ok (escape e ++ lit "?$query=" ++ escape q ++
           lit "%20limit%20" ++ str_of_int n)
  else Raise (PyExc "ValueError").
Proof.
  unfold build_query_url, generate_query.
  cbn [format_value bind].
  destruct (int_digits n <=? INT_MAX_STR_DIGITS)%nat; cbn [bind]; [|reflexivity].
  rewrite raw_query_assembled, substitute_assembled. reflexivity.
Qed.

Lemma build_query_url_ok (e q : str) (n : Z) :
  (int_digits n <= INT_MAX_STR_DIGITS)%nat ->
  build_query_url e q n =
  Ok (escape e ++ lit "?$query=" ++ escape q ++ lit "%20limit%20" ++ str_of_int n).
Proof.
  intros H. apply Nat.leb_le in H. rewrite build_query_url_cases, H. reflexivity.
Qed.

Lemma build_query_url_too_long (e q : str) (n : Z) :
  (INT_MAX_STR_DIGITS < int_digits n)%nat ->
  build_query_url e q n = Raise (PyExc "ValueError").
Proof.
  intros H. apply Nat.leb_gt in H. rewrite build_query_url_cases, H. reflexivity.
Qed.

Lemma build_query_url_ten_pow_4300 (e q : str) :
  build_query_url e q (10 ^ 4300) = Raise (PyExc "ValueError").
Proof. apply build_query_url_too_long, ten_pow_4300_too_long. Qed.

Lemma build_query_url_Ok_inv (e q : str) (n : Z) (out : str) :
  build_query_url e q n = Ok out ->
  (int_digits n <= INT_MAX_STR_DIGITS)%nat /\
  out = escape e ++ lit "?$query=" ++ escape q ++ lit "%20limit%20" ++ str_of_int n.
Proof.
  rewrite build_query_url_cases.
  destruct (int_digits n <=? INT_MAX_STR_DIGITS)%nat eqn:E; [|discriminate].
  intros H. split; [apply Nat.leb_le, E|].
  injection H as H. symmetry. exact H.
Qed.

(** ** Subsequences *)

Lemma Subseq_nil_l (b : str) : Subseq [] b.
Proof. induction b; constructor; assumption. Qed.

Lemma Subseq_refl (a : str) : Subseq a a.
Proof. induction a; constructor; assumption. Qed.

Lemma Subseq_app (a b a' b' : str) :
  Subseq a b -> Subseq a' b' -> Subseq (a ++ a') (b ++ b').
Proof.
  intros H H'. induction H; cbn [app]; try (constructor; assumption).
  assumption.
Qed.

Lemma Subseq_skip_app (a b p : str) : Subseq a b -> Subseq a (p ++ b).
Proof. intros H. induction p; cbn [app]; [|constructor]; assumption. Qed.

Lemma Subseq_kept_escape (s : str) : Subseq (kept s) (escape s).
Proof.
  induction s as [|c s IH]; [constructor|].
  change (Subseq (kept (c :: s)) (escape_char c ++ escape s)).
  unfold kept in *. cbn [filter]. unfold escape_char.
  destruct ((c =? SPACE) || (c =? NEWLINE)); cbn [negb].
  - exact (Subseq_skip_app _ _ PCT20 IH).
  - cbn [app]. apply Subseq_keep, IH.
Qed.

Lemma escape_newline_to_space (q : str) :
  escape (replace [NEWLINE] [SPACE] q) = escape q.
Proof.
  rewrite replace_single.
  induction q as [|c q IH]; [reflexivity|].
  unfold escape in *. cbn [flat_map]. rewrite flat_map_app, IH. f_equal.
  unfold replace_char.
  destruct (c =? NEWLINE) eqn:E; cbn [flat_map]; rewrite app_nil_r; [|reflexivity].
  apply N.eqb_eq in E. subst c. reflexivity.
Qed.

Lemma substitute_passthrough (s1 s2 : str) (c : codepoint) :
  c <> SPACE -> c <> NEWLINE ->
  substitute (s1 ++ c :: s2) = substitute s1 ++ c :: substitute s2.
Proof.
  intros Hs Hn.
  change (c :: s2) with ([c] ++ s2).
  rewrite !substitute_app.
  rewrite (substitute_clean [c]);
    [reflexivity | cbn [contains existsb]; rewrite orb_false_r;
                   apply N.eqb_neq; congruence ..].
Qed.

(** * The claims *)

(** C1, as the claim words it, fails: it promises a string for every
    integer, but for [10 ** 4300] formatting the limit raises. *)
Lemma spec_fails_beyond_digit_limit :
  build_query_url example_org (lit "SELECT *") (10 ^ 4300) <>
  Ok (replace [NEWLINE] (lit "%20")
        (replace [SPACE] (lit "%20")
           (example_org ++ lit "?$query=" ++ lit "SELECT *" ++
            lit "%20limit " ++ str_of_int (10 ^ 4300)))).
Proof.
  intros H.
  pose proof (build_query_url_ten_pow_4300 example_org (lit "SELECT *")) as R.
  congruence.
Qed.

(** C1, amended.  For every text [e] and [q] and every integer [n] of at
    most 4300 decimal digits, the call returns the string assembled as
    [e + "?$query=" + q + "%20limit " + str(n)] in which, over the whole
    string, first every space and afterwards every newline has been replaced
    by ["%20"], every other code point being left as it is. *)
Theorem build_query_url_spec (e q : str) (n : Z) :
  (int_digits n <= INT_MAX_STR_DIGITS)%nat ->
  build_query_url e q n =
  Ok (flat_map (replace_char NEWLINE (lit "%20"))
        (flat_map (replace_char SPACE (lit "%20"))
           (e ++ lit "?$query=" ++ q ++ lit "%20limit " ++ str_of_int n))).
Proof.
  intros H.
  unfold build_query_url, generate_query.
  rewrite (format_int_ok n H). cbn [format_value bind].
  rewrite raw_query_assembled, substitute_unfold, !replace_single.
  reflexivity.
Qed.

Lemma build_query_url_spec_witness :
  build_query_url (lit "u v") (lit "a" ++ [NEWLINE] ++ lit "b") 12 =
  Ok (lit "u%20v?$query=a%20b%20limit%2012").
Proof.
  apply (build_query_url_spec (lit "u v") (lit "a" ++ [NEWLINE] ++ lit "b") 12).
  apply Nat.leb_le. reflexivity.
Defined.

(** C2, as the claim words it, fails twice: on inputs without spaces and
    newlines the space between ["limit"] and the number does not survive,
    and for [10 ** 4300] no string is returned at all. *)
Lemma limit_space_not_literal :
  contains SPACE example_org = false /\ contains NEWLINE example_org = false /\
  contains SPACE (lit "SELECT") = false /\ contains NEWLINE (lit "SELECT") = false /\
  (0 <= 10)%Z /\
  build_query_url example_org (lit "SELECT") 10 <>
  Ok (example_org ++ lit "?$query=" ++ lit "SELECT" ++ lit "%20limit " ++ str_of_int 10) /\
  (0 <= 10 ^ 4300)%Z /\
  build_query_url example_org (lit "SELECT") (10 ^ 4300) <>
  Ok (example_org ++ lit "?$query=" ++ lit "SELECT" ++ lit "%20limit " ++
      str_of_int (10 ^ 4300)).
Proof.
  do 4 (split; [reflexivity|]).
  split; [discriminate|].
  split; [discriminate|].
  split; [apply Z.pow_nonneg; lia|].
  intros H.
  pose proof (build_query_url_ten_pow_4300 example_org (lit "SELECT")) as R.
  congruence.
Qed.

(** C2, amended.  For every text [e] and [q] without space and newline and
    every integer [n >= 0] of at most 4300 decimal digits, the call returns
    [e + "?$query=" + q + "%20limit%20" + str(n)]: the template's own space
    between ["limit"] and the number is replaced by ["%20"] like any other,
    and nothing else changes. *)
Theorem build_query_url_clean (e q : str) (n : Z) :
  (0 <= n)%Z ->
  (int_digits n <= INT_MAX_STR_DIGITS)%nat ->
  contains SPACE e = false -> contains NEWLINE e = false ->
  contains SPACE q = false -> contains NEWLINE q = false ->
  build_query_url e q n =
  Ok (e ++ lit "?$query=" ++ q ++ lit "%20limit%20" ++ str_of_int n).
Proof.
  intros _ Hd Hes Hen Hqs Hqn.
  rewrite (build_query_url_ok e q n Hd), <- !substitute_escape.
  rewrite (substitute_clean e Hes Hen), (substitute_clean q Hqs Hqn).
  reflexivity.
Qed.

Lemma build_query_url_clean_witness :
  build_query_url example_org (lit "SELECT") 10 =
  Ok (lit "https://example.org/resource?$query=SELECT%20limit%2010").
Proof.
  apply (build_query_url_clean example_org (lit "SELECT") 10);
    [lia | apply Nat.leb_le; reflexivity | reflexivity ..].
Defined.

(** C3, as the claim words it, fails: the result does not keep a literal
    space before [10]. *)
Lemma scenario_select_not_as_claimed :
  build_query_url example_org (lit "SELECT *") 10 <>
  Ok (lit "https://example.org/resource?$query=SELECT%20*%20limit 10").
Proof. discriminate. Qed.

(** C3, amended.  [build_query_url("https://example.org/resource",
    "SELECT *", 10)] returns exactly
    ["https://example.org/resource?$query=SELECT%20*%20limit%2010"]. *)
Theorem scenario_select :
  build_query_url example_org (lit "SELECT *") 10 =
  Ok (lit "https://example.org/resource?$query=SELECT%20*%20limit%2010").
Proof. reflexivity. Qed.

(** C4, as the claim words it, fails: the result does not keep a literal
    space before [5]. *)
Lemma scenario_multiline_not_as_claimed :
  build_query_url example_org (lit "a b" ++ [NEWLINE] ++ lit "c") 5 <>
  Ok (lit "https://example.org/resource?$query=a%20b%20c%20limit 5").
Proof. discriminate. Qed.

(** C4, amended.  [build_query_url("https://example.org/resource",
    "a b\nc", 5)], whose query holds a space and a newline, returns exactly
    ["https://example.org/resource?$query=a%20b%20c%20limit%205"]. *)
Theorem scenario_multiline :
  build_query_url example_org (lit "a b" ++ [NEWLINE] ++ lit "c") 5 =
  Ok (lit "https://example.org/resource?$query=a%20b%20c%20limit%205").
Proof. reflexivity. Qed.

(** C5.  For every input triple, in the string the call returns every space
    and every newline of the assembled string, whether it comes from [e],
    from [q] or from the template, is replaced by ["%20"] and every other
    code point is kept; so the returned string holds no space and no
    newline.  A string is returned whenever the limit has at most 4300
    digits. *)
Theorem no_whitespace_left (e q : str) (n : Z) :
  (forall out,
      build_query_url e q n = Ok out ->
      out = escape (assembled e q n) /\
      contains SPACE out = false /\
      contains NEWLINE out = false) /\
  ((int_digits n <= INT_MAX_STR_DIGITS)%nat ->
   exists out, build_query_url e q n = Ok out).
Proof.
  split.
  - intros out H. apply build_query_url_Ok_inv in H as [_ ->].
    rewrite <- substitute_assembled, substitute_escape.
    repeat split; apply escape_clean; auto.
  - intros H. eexists. apply build_query_url_ok, H.
Qed.

Lemma no_whitespace_left_witness :
  exists out,
    build_query_url (lit "u v") (lit "a" ++ [NEWLINE] ++ lit "b") 12 = Ok out /\
    contains SPACE out = false /\ contains NEWLINE out = false.
Proof.
  destruct (no_whitespace_left (lit "u v") (lit "a" ++ [NEWLINE] ++ lit "b") 12)
    as [Hp Hex].
  destruct Hex as [out Hout]; [apply Nat.leb_le; reflexivity|].
  exists out. split; [exact Hout|].
  exact (proj2 (Hp out Hout)).
Defined.

(** C6.  The substitution step (spaces to ["%20"], then newlines to
    ["%20"]) is idempotent on every string, and applying it again to the
    output of the call leaves that output unchanged. *)
Theorem substitute_idempotent :
  (forall s, substitute s = replace [NEWLINE] PCT20 (replace [SPACE] PCT20 s)) /\
  (forall s, substitute (substitute s) = substitute s) /\
  (forall e q n out,
      build_query_url e q n = Ok out -> substitute out = out).
Proof.
  assert (I : forall s, substitute (substitute s) = substitute s).
  { intros s. apply substitute_clean; rewrite substitute_escape;
      apply escape_clean; auto. }
  split; [exact substitute_unfold|]. split; [exact I|].
  intros e q n out H. apply build_query_url_Ok_inv in H as [_ ->].
  rewrite <- substitute_assembled. apply I.
Qed.

Lemma substitute_idempotent_witness :
  substitute (lit "u%20v?$query=a%20b%20limit%2012") =
  lit "u%20v?$query=a%20b%20limit%2012".
Proof.
  apply (proj2 (proj2 substitute_idempotent)
           (lit "u v") (lit "a" ++ [NEWLINE] ++ lit "b") 12%Z).
  reflexivity.
Defined.

(** C7.  Code points other than space and newline pass through: wherever
    such a code point [c] stands in [e] or in [q], it stands in the returned
    string as itself, between the encodings of what precedes and what follows
    it; so the code points of [e] and [q] other than space and newline occur
    in the returned string in their original order.  A string is returned
    whenever the limit has at most 4300 digits. *)
Theorem other_characters_pass_through (e q : str) (n : Z) :
  (forall out,
      build_query_url e q n = Ok out ->
      (forall e1 c e2,
          e = e1 ++ c :: e2 -> c <> SPACE -> c <> NEWLINE ->
          out = substitute e1 ++ c :: substitute e2 ++ lit "?$query=" ++
                substitute q ++ lit "%20limit%20" ++ str_of_int n) /\
      (forall q1 c q2,
          q = q1 ++ c :: q2 -> c <> SPACE -> c <> NEWLINE ->
          out = substitute e ++ lit "?$query=" ++
                substitute q1 ++ c :: substitute q2 ++
                lit "%20limit%20" ++ str_of_int n) /\
      Subseq (kept e ++ kept q) out) /\
  ((int_digits n <= INT_MAX_STR_DIGITS)%nat ->
   exists out, build_query_url e q n = Ok out).
Proof.
  split; [|intros H; eexists; apply build_query_url_ok, H].
  intros out H. apply build_query_url_Ok_inv in H as [_ ->].
  rewrite <- !substitute_escape. repeat split.
  - intros e1 c e2 -> Hs Hn.
    rewrite (substitute_passthrough e1 e2 c Hs Hn), <- app_assoc. reflexivity.
  - intros q1 c q2 -> Hs Hn.
    rewrite (substitute_passthrough q1 q2 c Hs Hn), <- app_assoc. reflexivity.
  - rewrite !substitute_escape.
    apply (Subseq_app (kept e) (escape e)); [apply Subseq_kept_escape|].
    apply Subseq_skip_app.
    rewrite <- (app_nil_r (kept q)).
    apply (Subseq_app (kept q) (escape q));
      [apply Subseq_kept_escape | apply Subseq_nil_l].
Qed.

Lemma other_characters_pass_through_witness :
  build_query_url [8364; 38] (lit "a #%b") 1 =
  Ok ([8364; 38] ++ lit "?$query=a%20#%b%20limit%201").
Proof.
  destruct (other_characters_pass_through [8364; 38] (lit "a #%b") 1)
    as [Hp Hex].
  destruct Hex as [out Hout]; [apply Nat.leb_le; reflexivity|].
  destruct (Hp out Hout) as (_ & Hq & _).
  rewrite Hout. f_equal.
  rewrite (Hq (lit "a ") 35 (lit "%b") eq_refl); [reflexivity | discriminate ..].
Defined.

(** The only way for the function to raise: formatting one of its
    arguments raises. *)
Lemma generate_query_raise (a b c : value) (x : exn) :
  generate_query a b c = Raise x ->
  format_value a = Raise x \/ format_value b = Raise x \/ format_value c = Raise x.
Proof.
  unfold generate_query.
  destruct (format_value a); cbn [bind]; [|auto].
  destruct (format_value b); cbn [bind]; [|auto].
  destruct (format_value c); cbn [bind]; [discriminate|auto].
Qed.

(** C9, as the claim words it, fails: on text, text and the integer
    [10 ** 4300] the call raises [ValueError] and returns no string. *)
Lemma raises_beyond_digit_limit :
  build_query_url example_org (lit "SELECT *") (10 ^ 4300) =
  Raise (PyExc "ValueError") /\
  ~ (exists out,
        build_query_url example_org (lit "SELECT *") (10 ^ 4300) = Ok out).
Proof.
  pose proof (build_query_url_ten_pow_4300 example_org (lit "SELECT *")) as R.
  split; [exact R|]. intros [out H]. congruence.
Qed.

(** C9, amended.  On text, text and an integer of at most 4300 decimal
    digits the call returns a string and does not raise. *)
Theorem build_query_url_total (e q : str) (n : Z) :
  (int_digits n <= INT_MAX_STR_DIGITS)%nat ->
  (exists out, build_query_url e q n = Ok out) /\
  (forall x, build_query_url e q n <> Raise x).
Proof.
  intros H. rewrite (build_query_url_ok e q n H).
  split; [eexists; reflexivity | discriminate].
Qed.

Lemma build_query_url_total_witness :
  exists out, build_query_url example_org (lit "SELECT *") (10 ^ 100 - 1) = Ok out.
Proof.
  apply (build_query_url_total example_org (lit "SELECT *") (10 ^ 100 - 1)).
  apply Nat.leb_le. vm_compute. reflexivity.
Defined.

(** C10.  The call is not injective in its query: turning every newline of
    [q] into a space does not change the result, and the two distinct
    queries [" "] and ["\n"] give the same result. *)
Theorem newline_and_space_collapse :
  (forall e q n,
      build_query_url e (replace [NEWLINE] [SPACE] q) n = build_query_url e q n) /\
  [SPACE] <> [NEWLINE] /\
  (forall e n, build_query_url e [SPACE] n = build_query_url e [NEWLINE] n).
Proof.
  split; [|split].
  - intros e q n.
    rewrite !build_query_url_cases, escape_newline_to_space. reflexivity.
  - discriminate.
  - intros e n. rewrite !build_query_url_cases. reflexivity.
Qed.

(** * Further properties of [generate_query] *)

(** ** Arguments of any type *)

Lemma generate_query_escape (a b c : value) (sa sb sc : str) :
  format_value a = Ok sa -> format_value b = Ok sb -> format_value c = Ok sc ->
  generate_query a b c =
  Ok (escape sa ++ lit "?$query=" ++ escape sb ++ lit "%20limit%20" ++ escape sc).
Proof.
  intros Ha Hb Hc. unfold generate_query. rewrite Ha, Hb, Hc. cbn [bind].
  unfold raw_query. rewrite !substitute_app, !substitute_escape. f_equal.
  rewrite <- !app_assoc. reflexivity.
Qed.

(** X1.  Whatever the three arguments are, when each of them formats to a text
    the result is the template with the substitution applied to each text on
    its own: the limit is substituted like the endpoint and the query, and
    the template's space after ["limit"] comes out as ["%20"]. *)
Theorem generate_query_formatted (a b c : value) (sa sb sc : str) :
  format_value a = Ok sa -> format_value b = Ok sb -> format_value c = Ok sc ->
  generate_query a b c =
  Ok (substitute sa ++ lit "?$query=" ++ substitute sb ++
      lit "%20limit%20" ++ substitute sc).
Proof.
  intros Ha Hb Hc. rewrite !substitute_escape.
  apply generate_query_escape; assumption.
Qed.

Lemma generate_query_formatted_witness :
  generate_query (PyStr example_org) (PyStr (lit "SELECT *"))
                 (PyObj (Ok (lit "not a number"))) =
  Ok (lit "https://example.org/resource?$query=SELECT%20*%20limit%20not%20a%20number").
Proof.
  apply (generate_query_formatted
           (PyStr example_org) (PyStr (lit "SELECT *"))
           (PyObj (Ok (lit "not a number")))
           example_org (lit "SELECT *") (lit "not a number"));
    reflexivity.
Defined.

(** X2.  Whatever the three arguments are, a returned string holds no space and
    no newline. *)
Theorem generate_query_no_whitespace (a b c : value) (out : str) :
  generate_query a b c = Ok out ->
  contains SPACE out = false /\ contains NEWLINE out = false.
Proof.
  unfold generate_query.
  destruct (format_value a) as [sa|]; cbn [bind]; [|discriminate].
  destruct (format_value b) as [sb|]; cbn [bind]; [|discriminate].
  destruct (format_value c) as [sc|]; cbn [bind]; [|discriminate].
  intros [= <-]. rewrite substitute_escape.
  split; apply escape_clean; auto.
Qed.

Lemma generate_query_no_whitespace_witness :
  contains SPACE (lit "https://example.org/resource?$query=a%20b%20limit%201%200") = false /\
  contains NEWLINE (lit "https://example.org/resource?$query=a%20b%20limit%201%200") = false.
Proof.
  apply (generate_query_no_whitespace
           (PyStr example_org) (PyStr (lit "a b")) (PyStr (lit "1 0"))).
  reflexivity.
Defined.

(** X3.  The function raises exactly when formatting one of its arguments
    raises, and then with the exception of the leftmost such argument: the
    endpoint is formatted first, the query second, the limit last. *)
Theorem generate_query_raises_leftmost (a b c : value) (x : exn) :
  generate_query a b c = Raise x <->
  format_value a = Raise x \/
  (exists sa, format_value a = Ok sa /\
     (format_value b = Raise x \/
      (exists sb, format_value b = Ok sb /\ format_value c = Raise x))).
Proof.
  unfold generate_query. split.
  - destruct (format_value a) as [sa|xa]; cbn [bind]; [|auto].
    intros H. right. exists sa. split; [reflexivity|].
    destruct (format_value b) as [sb|xb]; cbn [bind] in H; [|auto].
    right. exists sb. split; [reflexivity|].
    destruct (format_value c) as [sc|xc]; cbn [bind] in H; [discriminate|auto].
  - intros [Ha | (sa & Ha & [Hb | (sb & Hb & Hc)])].
    + rewrite Ha. reflexivity.
    + rewrite Ha, Hb. reflexivity.
    + rewrite Ha, Hb, Hc. reflexivity.
Qed.

Lemma generate_query_raises_leftmost_witness :
  generate_query (PyStr example_org)
                 (PyObj (Raise (PyExc "TypeError")))
                 (PyObj (Raise (PyExc "ValueError"))) =
  Raise (PyExc "TypeError").
Proof.
  apply (proj2 (generate_query_raises_leftmost
                  (PyStr example_org)
                  (PyObj (Raise (PyExc "TypeError")))
                  (PyObj (Raise (PyExc "ValueError")))
                  (PyExc "TypeError"))).
  right. exists example_org. split; [reflexivity|]. left. reflexivity.
Defined.

(** ** Length of the result *)

Lemma length_escape (s : str) :
  List.length (escape s) = (List.length s + 2 * count_ws s)%nat.
Proof.
  induction s as [|c s IH]; [reflexivity|].
  change (escape (c :: s)) with (escape_char c ++ escape s).
  rewrite length_app, IH. unfold count_ws, escape_char. cbn [filter].
  destruct ((c =? SPACE) || (c =? NEWLINE)); cbn [List.length PCT20]; cbn; lia.
Qed.

(** X4.  In a returned string each space and each newline of the endpoint
    and the query accounts for two code points more; the template
    contributes nineteen code points. *)
Theorem build_query_url_length (e q : str) (n : Z) (out : str) :
  build_query_url e q n = Ok out ->
  List.length out =
  (List.length e + List.length q + List.length (str_of_int n) + 19
   + 2 * (count_ws e + count_ws q))%nat.
Proof.
  intros H. apply build_query_url_Ok_inv in H as [_ ->].
  rewrite !length_app, !length_escape.
  change (List.length (lit "?$query=")) with 8%nat.
  change (List.length (lit "%20limit%20")) with 11%nat.
  lia.
Qed.

Lemma build_query_url_length_witness :
  List.length (lit "u%20v?$query=a%20b%20limit%2012") =
  (3 + 3 + 2 + 19 + 2 * (1 + 1))%nat.
Proof.
  apply (build_query_url_length
           (lit "u v") (lit "a" ++ [NEWLINE] ++ lit "b") 12).
  reflexivity.
Defined.

(** ** What the result determines *)

Lemma lit_inj (s t : string) : lit s = lit t -> s = t.
Proof.
  unfold lit. intros H.
  rewrite <- (string_of_list_ascii_of_string s), <- (string_of_list_ascii_of_string t).
  f_equal.
  revert H. generalize (list_ascii_of_string s) (list_ascii_of_string t).
  induction l as [|x l IH]; intros [|y l'] H; try discriminate; [reflexivity|].
  cbn [map] in H. injection H as Hx Hl.
  f_equal; [|apply IH, Hl].
  rewrite <- (ascii_N_embedding x), <- (ascii_N_embedding y), Hx. reflexivity.
Qed.

Lemma str_of_int_inj (n m : Z) : str_of_int n = str_of_int m -> n = m.
Proof.
  unfold str_of_int. intros H. apply lit_inj in H.
  apply DecimalZ.to_int_inj.
  apply (f_equal NilEmpty.int_of_string) in H.
  rewrite !NilEmpty.isi in H. congruence.
Qed.

Lemma Ok_inj (A : Type) (x y : A) : Ok x = Ok y -> x = y.
Proof. intros H. injection H as H. exact H. Qed.

(** X5.  For a given endpoint and query, a limit of at most 4300 digits
    gives a result that no other limit gives. *)
Theorem build_query_url_limit_injective (e q : str) (n m : Z) :
  (int_digits n <= INT_MAX_STR_DIGITS)%nat ->
  n <> m -> build_query_url e q n <> build_query_url e q m.
Proof.
  intros Hd Hnm H. apply Hnm.
  rewrite (build_query_url_ok e q n Hd) in H. symmetry in H.
  apply build_query_url_Ok_inv in H as [_ H].
  do 4 apply app_inv_head in H.
  apply str_of_int_inj, H.
Qed.

Lemma build_query_url_limit_injective_witness :
  build_query_url example_org (lit "SELECT *") 1 <>
  build_query_url example_org (lit "SELECT *") 10.
Proof.
  apply (build_query_url_limit_injective example_org (lit "SELECT *") 1 10).
  - apply Nat.leb_le. reflexivity.
  - discriminate.
Defined.

(** X6.  For a given endpoint and a limit of at most 4300 digits, two
    queries give the same result exactly when the substitution step sends
    them to the same text. *)
Theorem build_query_url_query_collision (e q q' : str) (n : Z) :
  (int_digits n <= INT_MAX_STR_DIGITS)%nat ->
  (build_query_url e q n = build_query_url e q' n <->
   substitute q = substitute q').
Proof.
  intros Hd.
  rewrite !(build_query_url_ok _ _ n Hd), !substitute_escape. split.
  - intros H. apply Ok_inj in H.
    do 2 apply app_inv_head in H.
    apply app_inv_tail in H. exact H.
  - intros ->. reflexivity.
Qed.

Lemma build_query_url_query_collision_witness :
  build_query_url example_org (lit "a b") 3 =
  build_query_url example_org (lit "a%20b") 3.
Proof.
  apply (proj2 (build_query_url_query_collision
                  example_org (lit "a b") (lit "a%20b") 3
                  ltac:(apply Nat.leb_le; reflexivity))).
  reflexivity.
Defined.

(** X7.  For a limit of at most 4300 digits, two different queries without
    spaces and newlines never give the same result. *)
Theorem build_query_url_clean_query_injective (e q q' : str) (n : Z) :
  (int_digits n <= INT_MAX_STR_DIGITS)%nat ->
  contains SPACE q = false -> contains NEWLINE q = false ->
  contains SPACE q' = false -> contains NEWLINE q' = false ->
  q <> q' ->
  build_query_url e q n <> build_query_url e q' n.
Proof.
  intros Hd Hs Hn Hs' Hn' Hne H. apply Hne.
  rewrite !(build_query_url_ok _ _ n Hd) in H. apply Ok_inj in H.
  do 2 apply app_inv_head in H. apply app_inv_tail in H.
  rewrite <- !substitute_escape in H.
  rewrite (substitute_clean q Hs Hn), (substitute_clean q' Hs' Hn') in H.
  exact H.
Qed.

Lemma build_query_url_clean_query_injective_witness :
  build_query_url example_org (lit "a&b") 3 <>
  build_query_url example_org (lit "a#b") 3.
Proof.
  apply (build_query_url_clean_query_injective
           example_org (lit "a&b") (lit "a#b") 3);
    [apply Nat.leb_le; reflexivity | reflexivity .. | discriminate].
Defined.

(** ** What the substitution does not tell apart *)

(** X8.  Input that already went through the substitution step is left as it
    is: encoding the endpoint or the query beforehand does not change the
    result.  So a space and a literal ["%20"] in the query cannot be told
    apart in the result, the percent sign not being escaped. *)
Theorem build_query_url_preencoded (e q : str) (n : Z) :
  build_query_url (substitute e) q n = build_query_url e q n /\
  build_query_url e (substitute q) n = build_query_url e q n /\
  (forall q1 q2,
      build_query_url e (q1 ++ [SPACE] ++ q2) n =
      build_query_url e (q1 ++ lit "%20" ++ q2) n).
Proof.
  assert (I : forall s, escape (escape s) = escape s).
  { intros s. rewrite <- (substitute_escape (escape s)).
    apply substitute_clean; apply escape_clean; auto. }
  rewrite !build_query_url_cases, !substitute_escape, !I.
  repeat split.
  intros q1 q2. rewrite !build_query_url_cases.
  unfold escape. rewrite !flat_map_app. reflexivity.
Qed.

(** X9.  The result does not record where the endpoint ends and the query
    begins: moving a ["?$query="] from inside the endpoint to the query's
    side gives the same result. *)
Theorem build_query_url_boundary (a b c : str) (n : Z) :
  build_query_url (a ++ lit "?$query=" ++ b) c n =
  build_query_url a (b ++ lit "?$query=" ++ c) n.
Proof.
  rewrite !build_query_url_cases.
  destruct (int_digits n <=? INT_MAX_STR_DIGITS)%nat; [|reflexivity].
  f_equal.
  unfold escape. rewrite !flat_map_app, <- !app_assoc. reflexivity.
Qed.

(** ** What is passed on unchecked *)

Lemma contains_escape (c : codepoint) (s : str) :
  c <> SPACE -> c <> NEWLINE ->
  contains c s = true -> contains c (escape s) = true.
Proof.
  intros Hs Hn. induction s as [|d s IH]; [discriminate|].
  change (escape (d :: s)) with (escape_char d ++ escape s).
  rewrite contains_app. cbn [contains existsb].
  destruct (c =? d) eqn:E; cbn [orb].
  - intros _. apply N.eqb_eq in E. subst d. unfold escape_char.
    apply N.eqb_neq in Hs, Hn. rewrite Hs, Hn. cbn [orb contains existsb].
    rewrite N.eqb_refl. reflexivity.
  - intros H. rewrite (IH H). apply orb_true_r.
Qed.

(** X10.  The loop names the space and the newline only: any other code
    point that occurs in the endpoint or in the query, a carriage return or
    a tab for instance, still occurs in a returned string. *)
Theorem build_query_url_keeps_other_controls
  (e q : str) (n : Z) (c : codepoint) (out : str) :
  c <> SPACE -> c <> NEWLINE ->
  contains c e = true \/ contains c q = true ->
  build_query_url e q n = Ok out ->
  contains c out = true.
Proof.
  intros Hs Hn H Hout. apply build_query_url_Ok_inv in Hout as [_ ->].
  rewrite !contains_app.
  destruct H as [H|H]; rewrite (contains_escape c _ Hs Hn H).
  - reflexivity.
  - rewrite orb_true_r. apply orb_true_r.
Qed.

Lemma build_query_url_keeps_other_controls_witness :
  contains CR (lit "https://example.org/resource?$query=a" ++
               [CR] ++ lit "%20" ++ [TAB] ++ lit "b%20limit%201") = true.
Proof.
  apply (build_query_url_keeps_other_controls
           example_org (lit "a" ++ [CR; NEWLINE; TAB] ++ lit "b") 1 CR);
    [discriminate | discriminate | right; reflexivity | reflexivity].
Defined.

(** X11.  The limit is not checked for its sign: a negative limit of at most
    4300 digits appears in the result as a minus sign followed by the
    numeral of its absolute value. *)
Theorem build_query_url_negative_limit (e q : str) (n : Z) :
  (n < 0)%Z ->
  (int_digits n <= INT_MAX_STR_DIGITS)%nat ->
  build_query_url e q n =
  Ok (substitute e ++ lit "?$query=" ++ substitute q ++
      lit "%20limit%20-" ++ str_of_int (- n)).
Proof.
  intros Hn Hd. rewrite (build_query_url_ok e q n Hd), !substitute_escape.
  destruct n as [|p|p]; [lia | lia |].
  do 3 f_equal.
Qed.

Lemma build_query_url_negative_limit_witness :
  build_query_url example_org (lit "SELECT *") (-5) =
  Ok (lit "https://example.org/resource?$query=SELECT%20*%20limit%20-5").
Proof.
  apply (build_query_url_negative_limit example_org (lit "SELECT *") (-5)).
  - reflexivity.
  - apply Nat.leb_le. reflexivity.
Defined.
